(** * BESS_Model.assests.battery: the Battery parameter record

    A shallow embedding of [src/BESS_Model/assests/battery.py].

    The class [Battery] has a constructor that stores eight attributes on
    the instance and one method, [get_parameters], that reads them back into
    a dict.  The embedding follows Python's object model for exactly that
    much:

    - an instance is its attribute dictionary ([obj], a finite map from
      attribute names to values);
    - the documented fields are floating-point, so numbers are binary64
      floats (Rocq's primitive floats, with the IEEE 754 operations Python
      uses); two non-numeric values stand for everything else a caller
      could pass;
    - a method is a computation over the instance that may raise. *)

From Stdlib Require Import ZArith Lia Bool Floats.
From stdpp Require Import base option gmap strings.

Set Default Proof Using "Type".
Set Warnings "-inexact-float".
Local Open Scope string_scope.

(** ** Python values, exceptions and the instance store *)

Inductive value : Type :=
| VFloat (x : float)
| VStr (s : string)
| VNone.

Inductive exn : Type :=
| TypeError
| AttributeError (name : string).

Inductive result (A : Type) : Type :=
| Ok (a : A)
| Raise (e : exn).
Arguments Ok {A} a.
Arguments Raise {A} e.

(** An instance's [__dict__], and the dict [get_parameters] returns. *)
Abbreviation obj := (gmap string value).
Abbreviation dict := (gmap string value).

(** Computations over [self]: read and write attributes, or raise. *)
Definition M (A : Type) : Type := obj -> result (A * obj).

Definition ret {A} (a : A) : M A := fun self => Ok (a, self).

Definition bind {A B} (c : M A) (k : A -> M B) : M B :=
  fun self =>
    match c self with
    | Ok (a, self') => k a self'
    | Raise e => Raise e
    end.

Definition raise {A} (e : exn) : M A := fun _ => Raise e.

Declare Scope py_scope.
Delimit Scope py_scope with py.
Notation "x <- c ;; k" := (bind c (fun x => k))
  (at level 100, c at next level, right associativity) : py_scope.
Notation "c ;; k" := (bind c (fun _ => k))
  (at level 100, right associativity) : py_scope.

(** [self.name = v] *)
Definition setattr (name : string) (v : value) : M unit :=
  fun self => Ok (tt, <[name := v]> self).

(** [self.name] *)
Definition getattr (name : string) : M value :=
  fun self =>
    match self !! name with
    | Some v => Ok (v, self)
    | None => Raise (AttributeError name)
    end.

(** [a * b]: the product of two floats is the IEEE 754 product; no other
    pair of the values above supports [*]. *)
Definition py_mul (a b : value) : M value :=
  match a, b with
  | VFloat x, VFloat y => ret (VFloat (x * y)%float)
  | _, _ => raise TypeError
  end.

(** ** The class *)

Module Battery.

(** [def __init__(self, current_charge=0.0, ..., max_depth_of_discharge=0.97)] *)
Definition init (current_charge capacity charging_power_limit
    discharging_power_limit charging_efficiency discharging_efficiency
    min_depth_of_discharge max_depth_of_discharge : value) : M unit :=
  (setattr "current_charge" current_charge ;;
   setattr "capacity" capacity ;;
   setattr "charging_power_limit" charging_power_limit ;;
   setattr "discharging_power_limit" discharging_power_limit ;;
   setattr "charging_efficiency" charging_efficiency ;;
   setattr "discharging_efficiency" discharging_efficiency ;;
   lo <- py_mul min_depth_of_discharge capacity ;;
   setattr "min_depth_of_discharge" lo ;;
   hi <- py_mul max_depth_of_discharge capacity ;;
   setattr "max_depth_of_discharge" hi)%py.

(** The keyword arguments of a call [Battery(...)]: each is given or left
    to its default. *)
Record kwargs : Type := Kwargs {
  kw_current_charge : option value;
  kw_capacity : option value;
  kw_charging_power_limit : option value;
  kw_discharging_power_limit : option value;
  kw_charging_efficiency : option value;
  kw_discharging_efficiency : option value;
  kw_min_depth_of_discharge : option value;
  kw_max_depth_of_discharge : option value
}.

Definition no_kwargs : kwargs :=
  Kwargs None None None None None None None None.

(** The call [Battery(...)] with keyword arguments [kw]: a fresh instance,
    initialised by [init] with the defaults of the signature filled in. *)
Definition new (kw : kwargs) : result obj :=
  match
    init (default (VFloat 0.0) (kw_current_charge kw))
         (default (VFloat 0.0) (kw_capacity kw))
         (default (VFloat 1.0) (kw_charging_power_limit kw))
         (default (VFloat 1.0) (kw_discharging_power_limit kw))
         (default (VFloat 0.95) (kw_charging_efficiency kw))
         (default (VFloat 0.95) (kw_discharging_efficiency kw))
         (default (VFloat 0.1) (kw_min_depth_of_discharge kw))
         (default (VFloat 0.97) (kw_max_depth_of_discharge kw))
         ∅
  with
  | Ok (_, self) => Ok self
  | Raise e => Raise e
  end.

(** [def get_parameters(self)] *)
Definition get_parameters : M dict :=
  (v1 <- getattr "current_charge" ;;
   v2 <- getattr "capacity" ;;
   v3 <- getattr "charging_power_limit" ;;
   v4 <- getattr "discharging_power_limit" ;;
   v5 <- getattr "charging_efficiency" ;;
   v6 <- getattr "discharging_efficiency" ;;
   v7 <- getattr "min_depth_of_discharge" ;;
   v8 <- getattr "max_depth_of_discharge" ;;
   ret (<["max_depth_of_discharge" := v8]>
        (<["min_depth_of_discharge" := v7]>
        (<["discharging_efficiency" := v6]>
        (<["charging_efficiency" := v5]>
        (<["discharging_power_limit" := v4]>
        (<["charging_power_limit" := v3]>
        (<["capacity" := v2]>
        (<["current_charge" := v1]> ∅)))))))))%py.

End Battery.

(** ** Instances and numeric calls *)

(** The eight attribute names, in the order the constructor stores them. *)
Definition fields : list string :=
  [ "current_charge"; "capacity"; "charging_power_limit";
    "discharging_power_limit"; "charging_efficiency";
    "discharging_efficiency"; "min_depth_of_discharge";
    "max_depth_of_discharge" ].

(** A Battery instance is an object that carries the eight attributes;
    what they hold, and which other attributes callers have added, is
    free. *)
Definition is_battery (self : obj) : Prop :=
  Forall (fun k => is_Some (self !! k)) fields.

#[global] Instance is_battery_dec (self : obj) : Decision (is_battery self).
Proof. unfold is_battery. apply _. Defined.

(** A call whose given arguments are all floats. *)
Definition float_kwargs (a1 a2 a3 a4 a5 a6 a7 a8 : option float)
  : Battery.kwargs :=
  Battery.Kwargs (VFloat <$> a1) (VFloat <$> a2) (VFloat <$> a3)
    (VFloat <$> a4) (VFloat <$> a5) (VFloat <$> a6) (VFloat <$> a7)
    (VFloat <$> a8).

(** The state such a call leaves, written out. *)
Definition built (a1 a2 a3 a4 a5 a6 a7 a8 : option float) : obj :=
  let c := default 0.0%float a2 in
  <["max_depth_of_discharge" := VFloat (default 0.97 a8 * c)%float]>
  (<["min_depth_of_discharge" := VFloat (default 0.1 a7 * c)%float]>
  (<["discharging_efficiency" := VFloat (default 0.95%float a6)]>
  (<["charging_efficiency" := VFloat (default 0.95%float a5)]>
  (<["discharging_power_limit" := VFloat (default 1.0%float a4)]>
  (<["charging_power_limit" := VFloat (default 1.0%float a3)]>
  (<["capacity" := VFloat c]>
  (<["current_charge" := VFloat (default 0.0%float a1)]> ∅))))))).

(** An attribute that holds a float comparing equal to zero ([x == 0]). *)
Definition holds_zero (self : obj) (k : string) : Prop :=
  exists x : float, self !! k = Some (VFloat x) /\ (x =? 0)%float = true.

(** The two depth-of-discharge bounds hold floats in order
    ([min_depth_of_discharge <= max_depth_of_discharge]). *)
Definition dod_ordered (self : obj) : Prop :=
  exists lo hi : float,
    self !! "min_depth_of_discharge" = Some (VFloat lo)
    /\ self !! "max_depth_of_discharge" = Some (VFloat hi)
    /\ (lo <=? hi)%float = true.


(** The first of the eight attributes, in the order [get_parameters] reads
    them, that an object lacks. *)
Definition first_missing (self : obj) : option string :=
  List.find (fun k => match self !! k with None => true | Some _ => false end)
    fields.

(** The call of [Battery] with the keyword arguments unpacked from a dict
    [d]: every key must be the
    name of a parameter (they are the eight attribute names), a parameter
    whose name is not a key takes its default. *)
Definition call_with_dict (d : dict) : result obj :=
  if decide (dom d ⊆ (list_to_set fields : gset string)) then
    Battery.new
      (Battery.Kwargs (d !! "current_charge") (d !! "capacity")
         (d !! "charging_power_limit") (d !! "discharging_power_limit")
         (d !! "charging_efficiency") (d !! "discharging_efficiency")
         (d !! "min_depth_of_discharge") (d !! "max_depth_of_discharge"))
  else Raise TypeError.

(** ** Binary64 arithmetic

    What the proofs about [*] on floats need: the classes of a float read
    off its specification ([Prim2SF]), and the steps of the rounding that
    [SFmul] performs, written on integers. *)

Module Binary64.
Local Open Scope Z_scope.

Definition is_nonnan (x : spec_float) : bool :=
  match x with S754_nan => false | _ => true end.

(** Finite or zero. *)
Definition SFis_finite (x : spec_float) : bool :=
  match x with S754_zero _ | S754_finite _ _ _ => true | _ => false end.

Definition SFis_zero (x : spec_float) : bool :=
  match x with S754_zero _ => true | _ => false end.

(** [x] is a zero, a finite float or an infinity of sign [s]. *)
Definition signed_as (s : bool) (x : spec_float) : bool :=
  match x with
  | S754_zero s' | S754_infinity s' | S754_finite s' _ _ => Bool.eqb s s'
  | S754_nan => false
  end.

Definition b2z (b : bool) : Z := if b then 1 else 0.

(** What [k] right shifts leave of [m]: the quotient, the bit shifted out
    last and whether anything below it was set. *)
Definition shr_inv (m k : Z) (mrs : shr_record) : Prop :=
  0 <= shr_m mrs
  /\ exists t, 0 <= t < 2 ^ k
       /\ 2 * m = (2 * shr_m mrs + b2z (shr_r mrs)) * 2 ^ k + t
       /\ (shr_s mrs = true <-> 0 < t).

(** Round to nearest, ties to even, on a shifted record. *)
Definition round_up (mrs : shr_record) : bool :=
  shr_r mrs && (shr_s mrs || Z.odd (shr_m mrs)).

(** The rounded mantissa of a shifted record. *)
Definition rounded (mrs : shr_record) : Z := shr_m mrs + b2z (round_up mrs).

(** The end of [binary_round_aux]: a mantissa that rounding carried to
    [2^53] is renormalised, then zero and overflow are told apart. *)
Definition finish (s : bool) (Q E : Z) : spec_float :=
  let '(Q', E') := if Q =? 2 ^ 53 then (2 ^ 52, E + 1) else (Q, E) in
  match Q' with
  | Z0 => S754_zero s
  | Zpos M => if E' <=? 971 then S754_finite s M E' else S754_infinity s
  | Zneg _ => S754_nan
  end.

(** [m1 * 2^e1 <= m2 * 2^e2], on integers. *)
Definition val_le (m1 e1 m2 e2 : Z) : Prop :=
  m1 * 2 ^ (e1 - Z.min e1 e2) <= m2 * 2 ^ (e2 - Z.min e1 e2).

End Binary64.


(** ** Facts about binary64 multiplication *)

Module Binary64Facts.
Import Binary64.
Local Open Scope Z_scope.

(** *** Classes of a float *)

Lemma SFeqb_refl_nonnan (x : spec_float) : SFeqb x x = is_nonnan x.
Proof.
  destruct x as [s|s| |s m e]; try destruct s; try reflexivity;
    unfold SFeqb, SFcompare; rewrite Z.compare_refl, Pos.compare_cont_refl;
    reflexivity.
Qed.

Lemma is_nan_spec (x : float) : is_nan x = negb (is_nonnan (Prim2SF x)).
Proof. unfold is_nan. by rewrite FloatAxioms.eqb_spec, SFeqb_refl_nonnan. Qed.

Lemma Prim2SF_zero : Prim2SF 0%float = S754_zero false.
Proof. reflexivity. Qed.

Lemma Prim2SF_infinity : Prim2SF infinity = S754_infinity false.
Proof. reflexivity. Qed.

Lemma is_finite_spec (x : float) : is_finite x = SFis_finite (Prim2SF x).
Proof.
  unfold is_finite, is_infinity. rewrite is_nan_spec, FloatAxioms.eqb_spec, abs_spec.
  rewrite Prim2SF_infinity.
  destruct (Prim2SF x) as [s|s| |s m e]; reflexivity.
Qed.

Lemma eqb_zero_spec (x : float) : (x =? 0)%float = SFis_zero (Prim2SF x).
Proof.
  rewrite FloatAxioms.eqb_spec, Prim2SF_zero.
  destruct (Prim2SF x) as [s|s| |s m e]; try destruct s; reflexivity.
Qed.

(** *** Rounding, step by step *)

(** [digits2_pos m] is the number of binary digits of [m]. *)
Lemma digits2_pos_bounds (m : positive) :
  2 ^ (Zpos (digits2_pos m) - 1) <= Zpos m < 2 ^ Zpos (digits2_pos m).
Proof.
  induction m as [p IH|p IH|]; simpl digits2_pos.
  - rewrite Pos2Z.inj_succ. replace (Z.succ (Zpos (digits2_pos p)) - 1)
      with (Z.succ (Zpos (digits2_pos p) - 1)) by lia.
    rewrite !Z.pow_succ_r by lia. lia.
  - rewrite Pos2Z.inj_succ. replace (Z.succ (Zpos (digits2_pos p)) - 1)
      with (Z.succ (Zpos (digits2_pos p) - 1)) by lia.
    rewrite !Z.pow_succ_r by lia. lia.
  - simpl. lia.
Qed.

Lemma iter_pos_nat {A} (f : A -> A) (p : positive) (x : A) :
  SpecFloat.iter_pos f p x = Nat.iter (Pos.to_nat p) f x.
Proof.
  revert x. induction p as [p IH|p IH|]; intros x; simpl SpecFloat.iter_pos.
  - rewrite !IH, <- Nat.iter_succ_r, <- Nat.iter_add.
    f_equal. rewrite Pos2Nat.inj_xI. lia.
  - rewrite !IH, <- Nat.iter_add. f_equal. rewrite Pos2Nat.inj_xO. lia.
  - reflexivity.
Qed.

Lemma shr_inv_0 (m : Z) :
  0 <= m -> shr_inv m 0 (shr_record_of_loc m loc_Exact).
Proof.
  intros Hm. split; [exact Hm|]. exists 0. simpl. repeat split; lia || done.
Qed.

Lemma shr_1_inv (m k : Z) (mrs : shr_record) :
  0 <= k -> shr_inv m k mrs -> shr_inv m (k + 1) (shr_1 mrs).
Proof.
  intros Hk (Hq & t & Ht & Hm & Hs).
  destruct mrs as [q r s]; simpl in *.
  assert (Hp : 2 ^ (k + 1) = 2 * 2 ^ k) by (rewrite Z.pow_add_r; lia).
  assert (Hpos : 0 < 2 ^ k) by (apply Z.pow_pos_nonneg; lia).
  assert (Hb : 0 <= b2z r * 2 ^ k + t < 2 * 2 ^ k
               /\ (r || s = true <-> 0 < b2z r * 2 ^ k + t)).
  { split; [destruct r; simpl; lia|].
    destruct r; simpl orb; simpl b2z; [split; [lia|done]|].
    rewrite Hs. lia. }
  destruct Hb as [Hb1 Hb2].
  destruct q as [|[p|p|]|p]; try lia; unfold shr_inv; simpl shr_1;
    simpl shr_m; simpl shr_r; simpl shr_s; (split; [lia|]); exists (b2z r * 2 ^ k + t); rewrite Hp;
    (split; [exact Hb1|]); (split; [|exact Hb2]).
  - rewrite Hm. simpl b2z at 2. ring.
  - rewrite Hm, (Pos2Z.inj_xI p). simpl b2z at 2. ring.
  - rewrite Hm, (Pos2Z.inj_xO p). simpl b2z at 2. ring.
  - rewrite Hm. simpl b2z at 2. ring.
Qed.

Lemma shr_iter_inv (m : Z) (n : nat) (mrs : shr_record) (k : Z) :
  0 <= k -> shr_inv m k mrs ->
  shr_inv m (k + Z.of_nat n) (Nat.iter n shr_1 mrs).
Proof.
  intros Hk H. induction n as [|n IH].
  - simpl. by rewrite Z.add_0_r.
  - rewrite Nat2Z.inj_succ. simpl Nat.iter.
    replace (k + Z.succ (Z.of_nat n)) with (k + Z.of_nat n + 1) by lia.
    apply shr_1_inv; [lia|exact IH].
Qed.

(** [shr] by [n >= 0] positions. *)
Lemma shr_spec (m e n : Z) :
  0 <= m -> 0 <= n ->
  exists mrs, shr (shr_record_of_loc m loc_Exact) e n = (mrs, e + n)
              /\ shr_inv m n mrs.
Proof.
  intros Hm Hn. destruct n as [|p|p]; try lia.
  - eexists. split; [simpl; by rewrite Z.add_0_r|]. by apply shr_inv_0.
  - eexists. split; [reflexivity|]. rewrite iter_pos_nat.
    pose proof (shr_iter_inv m (Pos.to_nat p) _ 0 ltac:(lia) (shr_inv_0 m Hm))
      as H.
    by rewrite positive_nat_Z, Z.add_0_l in H.
Qed.

Lemma round_nearest_even_spec (mrs : shr_record) :
  round_nearest_even (shr_m mrs) (loc_of_shr_record mrs)
  = shr_m mrs + b2z (round_up mrs).
Proof.
  destruct mrs as [q r s]. unfold round_up; simpl.
  destruct r, s; simpl; try lia.
  rewrite <- Z.negb_even. destruct (Z.even q); simpl; lia.
Qed.

(** The format. *)
Lemma fexp_eq (e : Z) : SpecFloat.fexp prec emax e = Z.max (e - 53) (-1074).
Proof. reflexivity. Qed.

Lemma shr_nonpos (mrs : shr_record) (e n : Z) :
  n <= 0 -> shr mrs e n = (mrs, e).
Proof. intros Hn. destruct n; try reflexivity. lia. Qed.

Lemma finish_spec (s : bool) (Q E : Z) :
  0 <= Q <= 2 ^ 53 -> -1074 <= E ->
  (let '(mrs, E') := shr_fexp prec emax Q E loc_Exact in
   match shr_m mrs with
   | Z0 => S754_zero s
   | Zpos M =>
       if E' <=? emax - prec then S754_finite s M E' else S754_infinity s
   | Zneg _ => S754_nan
   end) = finish s Q E.
Proof.
  intros HQ HE. unfold finish, shr_fexp. rewrite fexp_eq.
  destruct (Z.eqb_spec Q (2 ^ 53)) as [->|Hne].
  - replace (Z.max (Zdigits2 (2 ^ 53) + E - 53) (-1074) - E) with 1
      by (change (Zdigits2 (2 ^ 53)) with 54; lia).
    reflexivity.
  - destruct Q as [|q|q]; try lia.
    + rewrite shr_nonpos by (simpl Zdigits2; lia). reflexivity.
    + rewrite shr_nonpos; [reflexivity|].
      simpl Zdigits2. pose proof (digits2_pos_bounds q) as [Hlo _].
      assert (Zpos (digits2_pos q) - 1 < 53); [|lia].
      apply (Z.pow_lt_mono_r_iff 2); lia.
Qed.

Lemma b2z_range (b : bool) : 0 <= b2z b <= 1.
Proof. destruct b; simpl; lia. Qed.

(** [binary_round_aux] on a positive mantissa that needs no left shift:
    shift to the target exponent, round, finish. *)
Lemma binary_round_aux_spec (m : positive) (e : Z) :
  let L := Zpos (digits2_pos m) + e in
  let E := Z.max (L - 53) (-1074) in
  e <= E ->
  exists mrs,
    shr_inv (Zpos m) (E - e) mrs
    /\ (forall s, binary_round_aux prec emax s (Zpos m) e loc_Exact
                  = finish s (rounded mrs) E)
    /\ 0 <= rounded mrs <= 2 ^ 53
    /\ (E = L - 53 -> 2 ^ 52 <= shr_m mrs).
Proof.
  intros L E Hpre.
  destruct (shr_spec (Zpos m) e (E - e) ltac:(lia) ltac:(lia))
    as (mrs & Hshr & Hinv).
  exists mrs. split; [exact Hinv|].
  pose proof Hinv as (Hq & t & Ht & Hm & Hs).
  pose proof (digits2_pos_bounds m) as [Hlo Hhi].
  pose proof (b2z_range (shr_r mrs)) as Hr.
  pose proof (b2z_range (round_up mrs)) as Hu.
  set (k := E - e) in *. set (q := shr_m mrs) in *.
  assert (Hk : 0 <= k) by lia.
  assert (Hpk : 0 < 2 ^ k) by (apply Z.pow_pos_nonneg; lia).
  assert (Hq53 : q < 2 ^ 53).
  { assert (Hle : 2 ^ Zpos (digits2_pos m) <= 2 ^ k * 2 ^ 53).
    { rewrite <- Z.pow_add_r by lia. apply Z.pow_le_mono_r; lia. }
    nia. }
  assert (HQ : 0 <= rounded mrs <= 2 ^ 53) by (unfold rounded; fold q; lia).
  split; [|split; [exact HQ|]].
  - intros s. unfold binary_round_aux, shr_fexp at 1. rewrite fexp_eq.
    change (Zdigits2 (Zpos m)) with (Zpos (digits2_pos m)).
    fold L. fold E. fold k. rewrite Hshr.
    replace (e + k) with E by lia.
    rewrite round_nearest_even_spec. fold (rounded mrs).
    apply finish_spec; lia.
  - intros HE.
    assert (Hk52 : 2 ^ (Zpos (digits2_pos m) - 1) = 2 ^ k * 2 ^ 52).
    { rewrite <- Z.pow_add_r by lia. f_equal. lia. }
    nia.
Qed.

Lemma val_le_base (e0 m1 e1 m2 e2 : Z) :
  e0 <= e1 -> e0 <= e2 ->
  val_le m1 e1 m2 e2 <-> m1 * 2 ^ (e1 - e0) <= m2 * 2 ^ (e2 - e0).
Proof.
  intros H1 H2. unfold val_le. set (e := Z.min e1 e2).
  assert (Hp : 0 < 2 ^ (e - e0)) by (apply Z.pow_pos_nonneg; lia).
  replace (e1 - e0) with ((e1 - e) + (e - e0)) by lia.
  replace (e2 - e0) with ((e2 - e) + (e - e0)) by lia.
  rewrite !Z.pow_add_r by lia. rewrite !Z.mul_assoc.
  split; intros H.
  - apply Z.mul_le_mono_nonneg_r; lia.
  - apply Z.mul_le_mono_pos_r in H; lia.
Qed.

(** Values in order have magnitudes in order. *)
Lemma val_le_digits (m1 m2 : positive) (e1 e2 : Z) :
  val_le (Zpos m1) e1 (Zpos m2) e2 ->
  Zpos (digits2_pos m1) + e1 <= Zpos (digits2_pos m2) + e2.
Proof.
  unfold val_le. set (e := Z.min e1 e2). intros H.
  pose proof (digits2_pos_bounds m1) as [Hlo1 _].
  pose proof (digits2_pos_bounds m2) as [_ Hhi2].
  set (d1 := Zpos (digits2_pos m1)) in *.
  set (d2 := Zpos (digits2_pos m2)) in *.
  assert (Hd1 : 0 < d1) by (unfold d1; lia).
  assert (Hd2 : 0 < d2) by (unfold d2; lia).
  assert (Hp1 : 0 < 2 ^ (e1 - e)) by (apply Z.pow_pos_nonneg; lia).
  assert (Hp2 : 0 < 2 ^ (e2 - e)) by (apply Z.pow_pos_nonneg; lia).
  assert (Hlt : 2 ^ (d1 - 1 + (e1 - e)) < 2 ^ (d2 + (e2 - e))).
  { rewrite !Z.pow_add_r by lia. nia. }
  apply Z.pow_lt_mono_r_iff in Hlt; lia.
Qed.

(** Rounding to nearest even is monotone on records shifted to one
    exponent. *)
Lemma rounded_mono (m1 k1 m2 k2 K : Z) (R1 R2 : shr_record) :
  0 <= k1 <= K -> 0 <= k2 <= K ->
  shr_inv m1 k1 R1 -> shr_inv m2 k2 R2 ->
  m1 * 2 ^ (K - k1) <= m2 * 2 ^ (K - k2) ->
  rounded R1 <= rounded R2.
Proof.
  intros Hk1 Hk2 (Hq1 & t1 & Ht1 & Hm1 & Hs1) (Hq2 & t2 & Ht2 & Hm2 & Hs2) Hle.
  assert (HK1 : 2 ^ K = 2 ^ k1 * 2 ^ (K - k1)).
  { rewrite <- Z.pow_add_r by lia. f_equal. lia. }
  assert (HK2 : 2 ^ K = 2 ^ k2 * 2 ^ (K - k2)).
  { rewrite <- Z.pow_add_r by lia. f_equal. lia. }
  assert (Hp1 : 0 < 2 ^ (K - k1)) by (apply Z.pow_pos_nonneg; lia).
  assert (Hp2 : 0 < 2 ^ (K - k2)) by (apply Z.pow_pos_nonneg; lia).
  assert (HpK : 0 < 2 ^ K) by (apply Z.pow_pos_nonneg; lia).
  set (A1 := 2 ^ (K - k1)) in *. set (A2 := 2 ^ (K - k2)) in *.
  set (W := 2 ^ K) in *.
  set (a1 := 2 * shr_m R1 + b2z (shr_r R1)) in *.
  set (a2 := 2 * shr_m R2 + b2z (shr_r R2)) in *.
  assert (E1 : 2 * (m1 * A1) = a1 * W + t1 * A1).
  { rewrite HK1. rewrite Z.mul_assoc, Hm1. ring. }
  assert (E2 : 2 * (m2 * A2) = a2 * W + t2 * A2).
  { rewrite HK2. rewrite Z.mul_assoc, Hm2. ring. }
  assert (T1 : 0 <= t1 * A1 < W) by (rewrite HK1; nia).
  assert (T2 : 0 <= t2 * A2 < W) by (rewrite HK2; nia).
  assert (Ha : a1 <= a2) by nia.
  assert (Hst : a1 = a2 -> shr_s R1 = true -> shr_s R2 = true).
  { intros Heq H1. apply Hs2. apply Hs1 in H1. nia. }
  unfold rounded, round_up. subst a1 a2.
  destruct R1 as [q1 r1 s1], R2 as [q2 r2 s2]; simpl in *.
  destruct (Z.eq_dec q1 q2) as [->|Hne].
  - destruct r1, r2, s1, s2; simpl in *; try lia;
      try destruct (Z.odd q2); simpl; try lia;
      exfalso; (assert (false = true) by (apply Hst; [lia|reflexivity]));
      discriminate.
  - assert (q1 < q2) by (destruct r1, r2; simpl in *; lia).
    pose proof (b2z_range (r1 && (s1 || Z.odd q1))).
    pose proof (b2z_range (r2 && (s2 || Z.odd q2))). lia.
Qed.

(** Comparison of same-sign finite floats, lexicographic in exponent and
    mantissa. *)
Lemma SFleb_finite (M1 M2 : positive) (E1 E2 : Z) :
  E1 < E2 \/ (E1 = E2 /\ Zpos M1 <= Zpos M2) ->
  SFleb (S754_finite false M1 E1) (S754_finite false M2 E2) = true
  /\ SFleb (S754_finite true M2 E2) (S754_finite true M1 E1) = true.
Proof.
  unfold SFleb, SFcompare. intros [Hlt|[-> Hle]].
  - rewrite (proj2 (Z.compare_lt_iff E1 E2) Hlt).
    rewrite (proj2 (Z.compare_gt_iff E2 E1) Hlt). by split.
  - rewrite Z.compare_refl.
    change (Pos.compare_cont Eq M1 M2) with (M1 ?= M2)%positive.
    change (Pos.compare_cont Eq M2 M1) with (M2 ?= M1)%positive.
    rewrite (Pos.compare_antisym M1 M2), CompOpp_involutive.
    change ((M1 ?= M2)%positive <> Gt) in Hle.
    by destruct (M1 ?= M2)%positive.
Qed.

Lemma finish_le (Q1 E1 Q2 E2 : Z) :
  0 <= Q1 <= 2 ^ 53 -> 0 <= Q2 <= 2 ^ 53 ->
  (E1 = E2 /\ Q1 <= Q2) \/ (E1 < E2 /\ 2 ^ 52 <= Q2) ->
  SFleb (finish false Q1 E1) (finish false Q2 E2) = true
  /\ SFleb (finish true Q2 E2) (finish true Q1 E1) = true.
Proof.
  unfold finish.
  change (2 ^ 53) with 9007199254740992.
  change (2 ^ 52) with 4503599627370496.
  intros H1 H2 H.
  destruct (Z.eqb_spec Q1 9007199254740992) as [->|N1],
           (Z.eqb_spec Q2 9007199254740992) as [->|N2].
  - destruct (Z.leb_spec (E1 + 1) 971), (Z.leb_spec (E2 + 1) 971).
    + apply SFleb_finite. lia.
    + split; reflexivity.
    + exfalso. lia.
    + split; reflexivity.
  - destruct Q2 as [|M2|M2].
    + exfalso. lia.
    + destruct (Z.leb_spec (E1 + 1) 971), (Z.leb_spec E2 971).
      * apply SFleb_finite. lia.
      * split; reflexivity.
      * exfalso. lia.
      * split; reflexivity.
    + exfalso. lia.
  - destruct Q1 as [|M1|M1].
    + destruct (Z.leb_spec (E2 + 1) 971); split; reflexivity.
    + destruct (Z.leb_spec E1 971), (Z.leb_spec (E2 + 1) 971).
      * apply SFleb_finite. lia.
      * split; reflexivity.
      * exfalso. lia.
      * split; reflexivity.
    + exfalso. lia.
  - destruct Q1 as [|M1|M1], Q2 as [|M2|M2]; try (exfalso; lia).
    + split; reflexivity.
    + destruct (Z.leb_spec E2 971); split; reflexivity.
    + destruct (Z.leb_spec E1 971), (Z.leb_spec E2 971).
      * apply SFleb_finite. lia.
      * split; reflexivity.
      * exfalso. lia.
      * split; reflexivity.
Qed.

Lemma binary_round_aux_mono (m1 m2 : positive) (e1 e2 : Z) :
  e1 <= Z.max (Zpos (digits2_pos m1) + e1 - 53) (-1074) ->
  e2 <= Z.max (Zpos (digits2_pos m2) + e2 - 53) (-1074) ->
  val_le (Zpos m1) e1 (Zpos m2) e2 ->
  SFleb (binary_round_aux prec emax false (Zpos m1) e1 loc_Exact)
        (binary_round_aux prec emax false (Zpos m2) e2 loc_Exact) = true
  /\ SFleb (binary_round_aux prec emax true (Zpos m2) e2 loc_Exact)
           (binary_round_aux prec emax true (Zpos m1) e1 loc_Exact) = true.
Proof.
  intros Hp1 Hp2 Hle.
  pose proof (val_le_digits _ _ _ _ Hle) as HL.
  destruct (binary_round_aux_spec m1 e1 Hp1) as (R1 & I1 & F1 & B1 & _).
  destruct (binary_round_aux_spec m2 e2 Hp2) as (R2 & I2 & F2 & B2 & N2).
  rewrite !F1, !F2. clear F1 F2.
  set (E1 := Z.max (Zpos (digits2_pos m1) + e1 - 53) (-1074)) in *.
  set (E2 := Z.max (Zpos (digits2_pos m2) + e2 - 53) (-1074)) in *.
  apply finish_le; [exact B1|exact B2|].
  destruct (Z.eq_dec E1 E2) as [Heq|Hne].
  - left. split; [exact Heq|].
    apply (rounded_mono (Zpos m1) (E1 - e1) (Zpos m2) (E2 - e2)
             (E1 - Z.min e1 e2)); [lia|lia|exact I1|exact I2|].
    unfold val_le in Hle.
    replace (E1 - Z.min e1 e2 - (E1 - e1)) with (e1 - Z.min e1 e2) by lia.
    replace (E1 - Z.min e1 e2 - (E2 - e2)) with (e2 - Z.min e1 e2) by lia.
    exact Hle.
  - right. assert (Hlt : E1 < E2) by (unfold E1, E2 in *; lia).
    split; [exact Hlt|].
    assert (HE2 : E2 = Zpos (digits2_pos m2) + e2 - 53)
      by (unfold E1, E2 in *; lia).
    specialize (N2 HE2). destruct I2 as [Hq2 _].
    unfold rounded. pose proof (b2z_range (round_up R2)). lia.
Qed.

(** Valid finite floats are canonical. *)
Lemma bounded_canonical (m : positive) (e : Z) :
  bounded prec emax m e = true ->
  e = Z.max (Zpos (digits2_pos m) + e - 53) (-1074).
Proof.
  unfold bounded, canonical_mantissa. rewrite fexp_eq.
  intros H. apply andb_true_iff in H as [H _].
  apply Z.eqb_eq in H. lia.
Qed.

Lemma digits2_pos_mul (m1 m2 : positive) :
  Zpos (digits2_pos m1) + Zpos (digits2_pos m2) - 1
  <= Zpos (digits2_pos (m1 * m2)).
Proof.
  pose proof (digits2_pos_bounds m1) as [L1 _].
  pose proof (digits2_pos_bounds m2) as [L2 _].
  pose proof (digits2_pos_bounds (m1 * m2)) as [_ H].
  rewrite Pos2Z.inj_mul in H.
  set (d1 := Zpos (digits2_pos m1)) in *.
  set (d2 := Zpos (digits2_pos m2)) in *.
  set (d := Zpos (digits2_pos (m1 * m2))) in *.
  assert (Hd1 : 0 < d1) by (unfold d1; lia).
  assert (Hd2 : 0 < d2) by (unfold d2; lia).
  assert (Hlt : 2 ^ ((d1 - 1) + (d2 - 1)) < 2 ^ d).
  { rewrite Z.pow_add_r by lia.
    assert (0 < 2 ^ (d1 - 1)) by (apply Z.pow_pos_nonneg; lia).
    assert (0 < 2 ^ (d2 - 1)) by (apply Z.pow_pos_nonneg; lia).
    nia. }
  apply Z.pow_lt_mono_r_iff in Hlt; unfold d in *; lia.
Qed.

(** The product of two valid mantissas never needs a left shift. *)
Lemma mul_no_left_shift (m1 m2 : positive) (e1 e2 : Z) :
  bounded prec emax m1 e1 = true -> bounded prec emax m2 e2 = true ->
  e1 + e2 <= Z.max (Zpos (digits2_pos (m1 * m2)) + (e1 + e2) - 53) (-1074).
Proof.
  intros H1 H2. apply bounded_canonical in H1, H2.
  pose proof (digits2_pos_mul m1 m2).
  assert (0 < Zpos (digits2_pos m1)) by lia.
  assert (0 < Zpos (digits2_pos m2)) by lia.
  lia.
Qed.

(** The order of valid same-sign finite floats is the order of their
    values. *)
Lemma canonical_val_le (m1 m2 : positive) (e1 e2 : Z) :
  bounded prec emax m1 e1 = true -> bounded prec emax m2 e2 = true ->
  e1 < e2 \/ (e1 = e2 /\ Zpos m1 <= Zpos m2) ->
  val_le (Zpos m1) e1 (Zpos m2) e2.
Proof.
  intros H1 H2 H. apply bounded_canonical in H1, H2.
  unfold val_le. destruct H as [Hlt|[-> Hle]].
  - replace (Z.min e1 e2) with e1 by lia.
    rewrite Z.sub_diag, Z.pow_0_r.
    pose proof (digits2_pos_bounds m1) as [_ U1].
    pose proof (digits2_pos_bounds m2) as [L2 _].
    assert (D2 : Zpos (digits2_pos m2) = 53) by lia.
    rewrite D2 in L2.
    assert (D1 : 2 ^ Zpos (digits2_pos m1) <= 2 ^ 53)
      by (apply Z.pow_le_mono_r; lia).
    assert (P : 2 ^ 1 <= 2 ^ (e2 - e1)) by (apply Z.pow_le_mono_r; lia).
    change (2 ^ (53 - 1)) with 4503599627370496 in L2.
    change (2 ^ 53) with 9007199254740992 in D1.
    change (2 ^ 1) with 2 in P.
    nia.
  - rewrite Z.min_id, Z.sub_diag, Z.pow_0_r. lia.
Qed.

Lemma val_le_scale (m1 e1 m2 e2 c ec : Z) :
  0 <= c -> val_le m1 e1 m2 e2 ->
  val_le (m1 * c) (e1 + ec) (m2 * c) (e2 + ec).
Proof.
  unfold val_le. intros Hc H.
  replace (Z.min (e1 + ec) (e2 + ec)) with (Z.min e1 e2 + ec) by lia.
  replace (e1 + ec - (Z.min e1 e2 + ec)) with (e1 - Z.min e1 e2) by lia.
  replace (e2 + ec - (Z.min e1 e2 + ec)) with (e2 - Z.min e1 e2) by lia.
  rewrite <- !(Z.mul_assoc _ c), !(Z.mul_comm c), !Z.mul_assoc.
  apply Z.mul_le_mono_nonneg_r; assumption.
Qed.

Lemma SFleb_finite_inv (s : bool) (M1 M2 : positive) (E1 E2 : Z) :
  SFleb (S754_finite s M1 E1) (S754_finite s M2 E2) = true ->
  if s then E2 < E1 \/ (E2 = E1 /\ Zpos M2 <= Zpos M1)
  else E1 < E2 \/ (E1 = E2 /\ Zpos M1 <= Zpos M2).
Proof.
  unfold SFleb, SFcompare.
  change (Pos.compare_cont Eq M1 M2) with (Zpos M1 ?= Zpos M2).
  destruct s; destruct (Z.compare_spec E1 E2) as [->|Hlt|Hgt];
    destruct (Z.compare_spec (Zpos M1) (Zpos M2)); simpl;
    intros; try discriminate; lia.
Qed.

(** *** Signs and order of products *)

Lemma finish_signed (s : bool) (Q E : Z) :
  0 <= Q -> signed_as s (finish s Q E) = true.
Proof.
  intros HQ. unfold finish.
  destruct (Q =? 2 ^ 53).
  - change (2 ^ 52) with 4503599627370496.
    destruct (E + 1 <=? 971); simpl; apply eqb_reflx.
  - destruct Q as [|M|M]; try lia; [|destruct (E <=? 971)];
      simpl; apply eqb_reflx.
Qed.

Lemma SFleb_signed (x y : spec_float) :
  signed_as true x = true -> signed_as false y = true -> SFleb x y = true.
Proof.
  destruct x as [[]|[]| |[] ? ?], y as [[]|[]| |[] ? ?];
    simpl; intros; try discriminate; reflexivity.
Qed.

Lemma SFleb_zero_l (s : bool) (y : spec_float) :
  signed_as false y = true -> SFleb (S754_zero s) y = true.
Proof. destruct y as [[]|[]| |[] ? ?]; simpl; intros; done. Qed.

Lemma SFleb_zero_r (s : bool) (x : spec_float) :
  signed_as true x = true -> SFleb x (S754_zero s) = true.
Proof. destruct x as [[]|[]| |[] ? ?]; simpl; intros; done. Qed.

Lemma SFleb_neg_infinity (y : spec_float) :
  is_nonnan y = true -> SFleb (S754_infinity true) y = true.
Proof. destruct y as [[]|[]| |[] ? ?]; simpl; intros; done. Qed.

Lemma SFleb_infinity (x : spec_float) :
  is_nonnan x = true -> SFleb x (S754_infinity false) = true.
Proof. destruct x as [[]|[]| |[] ? ?]; simpl; intros; done. Qed.

Lemma signed_nonnan (s : bool) (x : spec_float) :
  signed_as s x = true -> is_nonnan x = true.
Proof. destruct x; simpl; intros; done. Qed.

(** The product of two valid finite floats, by cases on the signs. *)
Lemma SFmul_finite_signed (s1 s2 : bool) (m1 m2 : positive) (e1 e2 : Z) :
  bounded prec emax m1 e1 = true -> bounded prec emax m2 e2 = true ->
  signed_as (xorb s1 s2)
    (SF64mul (S754_finite s1 m1 e1) (S754_finite s2 m2 e2)) = true.
Proof.
  intros H1 H2. unfold SF64mul, SFmul.
  destruct (binary_round_aux_spec (m1 * m2) (e1 + e2)
              (mul_no_left_shift m1 m2 e1 e2 H1 H2)) as (R & _ & -> & B & _).
  apply finish_signed. lia.
Qed.

(** Multiplying by a non-negative float keeps the order, whenever neither
    product is NaN. *)
Lemma SFmul_mono (F G C : spec_float) :
  valid_binary F = true -> valid_binary G = true -> valid_binary C = true ->
  SFleb F G = true -> SFleb (S754_zero false) C = true ->
  is_nonnan (SF64mul F C) = true -> is_nonnan (SF64mul G C) = true ->
  SFleb (SF64mul F C) (SF64mul G C) = true.
Proof.
  intros VF VG VC HFG HC NF NG.
  destruct C as [sc|[]| |[] mc ec]; try discriminate HC.
  - (* a zero capacity *)
    destruct F as [sf|sf| |sf mf ef], G as [sg|sg| |sg mg eg];
      try discriminate NF; try discriminate NG; try discriminate HFG;
      reflexivity.
  - (* an infinite capacity *)
    destruct F as [sf|[]| |[] mf ef], G as [sg|[]| |[] mg eg];
      try discriminate NF; try discriminate NG; try discriminate HFG;
      reflexivity.
  - (* a positive finite capacity *)
    simpl in VF, VG, VC.
    destruct F as [sf|[]| |[] mf ef], G as [sg|[]| |[] mg eg];
      try discriminate HFG;
      try reflexivity;
      try (apply SFleb_neg_infinity; exact NG);
      try (apply SFleb_infinity; exact NF);
      try (apply SFleb_zero_l;
           exact (SFmul_finite_signed false false _ _ _ _ VG VC));
      try (apply SFleb_zero_r;
           exact (SFmul_finite_signed true false _ _ _ _ VF VC));
      try (apply SFleb_signed;
           [ exact (SFmul_finite_signed true false _ _ _ _ VF VC)
           | exact (SFmul_finite_signed false false _ _ _ _ VG VC) ]).
    + (* both negative *)
      apply (SFleb_finite_inv true) in HFG.
      unfold SF64mul, SFmul. simpl xorb. rewrite !Pos2Z.inj_mul.
      rewrite <- !Pos2Z.inj_mul.
      apply binary_round_aux_mono;
        [ by apply mul_no_left_shift | by apply mul_no_left_shift | ].
      rewrite !Pos2Z.inj_mul. apply val_le_scale; [lia|].
      by apply canonical_val_le.
    + (* both positive *)
      apply (SFleb_finite_inv false) in HFG.
      unfold SF64mul, SFmul. simpl xorb.
      apply binary_round_aux_mono;
        [ by apply mul_no_left_shift | by apply mul_no_left_shift | ].
      rewrite !Pos2Z.inj_mul. apply val_le_scale; [lia|].
      by apply canonical_val_le.
Qed.

(** Multiplication on floats. *)
Lemma mul_zero_r (f c : float) :
  is_finite f = true -> (c =? 0)%float = true -> (f * c =? 0)%float = true.
Proof.
  rewrite is_finite_spec, !eqb_zero_spec, mul_spec.
  destruct (Prim2SF f) as [s|s| |s m e], (Prim2SF c) as [s'|s'| |s' m' e'];
    simpl; congruence.
Qed.

Lemma mul_mono (f g c : float) :
  (f <=? g)%float = true -> (0 <=? c)%float = true ->
  is_nan (f * c) = false -> is_nan (g * c) = false ->
  (f * c <=? g * c)%float = true.
Proof.
  rewrite !is_nan_spec, !leb_spec, !mul_spec, Prim2SF_zero.
  intros Hfg Hc Nf Ng. apply negb_false_iff in Nf, Ng.
  apply SFmul_mono; auto using Prim2SF_valid.
Qed.

(** *** Commutativity, negation and the factor 1.0 *)

Lemma SFmul_comm (x y : spec_float) : SF64mul x y = SF64mul y x.
Proof.
  unfold SF64mul.
  destruct x as [sx|sx| |sx mx ex], y as [sy|sy| |sy my ey]; simpl;
    rewrite ?(xorb_comm sx sy); try reflexivity.
  by rewrite (Pos.mul_comm mx my), (Z.add_comm ex ey).
Qed.

Lemma mul_comm (x y : float) : (x * y)%float = (y * x)%float.
Proof. apply Prim2SF_inj. rewrite !mul_spec. apply SFmul_comm. Qed.

Lemma binary_round_aux_opp (s : bool) (m e : Z) (l : location) :
  binary_round_aux prec emax (negb s) m e l
  = SFopp (binary_round_aux prec emax s m e l).
Proof.
  unfold binary_round_aux.
  destruct (shr_fexp prec emax m e l) as [mrs e'].
  destruct (shr_fexp prec emax _ e' loc_Exact) as [mrs' e''].
  destruct (shr_m mrs'); try reflexivity.
  destruct (e'' <=? emax - prec); reflexivity.
Qed.

Lemma SFmul_opp_r (x y : spec_float) :
  SF64mul x (SFopp y) = SFopp (SF64mul x y).
Proof.
  unfold SF64mul.
  destruct x as [[]|[]| |[] mx ex], y as [[]|[]| |[] my ey]; simpl;
    try reflexivity;
    first [ apply (binary_round_aux_opp false)
          | apply (binary_round_aux_opp true) ].
Qed.

Lemma SFleb_opp (x y : spec_float) :
  SFleb (SFopp x) (SFopp y) = SFleb y x.
Proof.
  unfold SFleb.
  destruct x as [[]|[]| |[] mx ex], y as [[]|[]| |[] my ey];
    try reflexivity; simpl;
    rewrite (Z.compare_antisym ex ey);
    change (Pos.compare_cont Eq my mx) with (my ?= mx)%positive;
    change (Pos.compare_cont Eq mx my) with (mx ?= my)%positive;
    rewrite (Pos.compare_antisym mx my);
    destruct (ex ?= ey); try reflexivity;
    destruct (mx ?= my)%positive; reflexivity.
Qed.

Lemma Prim2SF_one :
  Prim2SF 1%float = S754_finite false 4503599627370496 (-52).
Proof. reflexivity. Qed.

Lemma digits2_pos_shift52 (m : positive) :
  Zpos (digits2_pos (4503599627370496 * m)) = Zpos (digits2_pos m) + 52.
Proof.
  pose proof (digits2_pos_bounds m) as [L U].
  pose proof (digits2_pos_bounds (4503599627370496 * m)) as [L' U'].
  rewrite Pos2Z.inj_mul in L', U'.
  change (Zpos 4503599627370496) with (2 ^ 52) in L', U'.
  set (d := Zpos (digits2_pos m)) in *.
  set (d' := Zpos (digits2_pos (4503599627370496 * m))) in *.
  assert (Hd : 0 < d) by (unfold d; lia).
  assert (Hd' : 0 < d') by (unfold d'; lia).
  assert (H1 : 2 ^ (d' - 1) < 2 ^ (52 + d)).
  { rewrite Z.pow_add_r by lia. lia. }
  assert (H2 : 2 ^ (52 + (d - 1)) < 2 ^ d').
  { rewrite Z.pow_add_r by lia. lia. }
  apply Z.pow_lt_mono_r_iff in H1; [|lia|lia].
  apply Z.pow_lt_mono_r_iff in H2; lia.
Qed.

(** Multiplying by 1.0 is exact. *)
Lemma SFmul_one_l (C : spec_float) :
  valid_binary C = true ->
  SF64mul (S754_finite false 4503599627370496 (-52)) C = C.
Proof.
  intros VC. destruct C as [s|s| |s m e]; try reflexivity.
  simpl in VC. unfold SF64mul, SFmul. simpl xorb.
  assert (V1 : bounded prec emax 4503599627370496 (-52) = true) by reflexivity.
  pose proof (bounded_canonical m e VC) as Hcan.
  destruct (binary_round_aux_spec (4503599627370496 * m) (-52 + e)
              (mul_no_left_shift _ m _ e V1 VC)) as (R & I & -> & _).
  rewrite digits2_pos_shift52 in *.
  replace (Z.max (Zpos (digits2_pos m) + 52 + (-52 + e) - 53) (-1074))
    with e in * by lia.
  replace (e - (-52 + e)) with 52 in I by lia.
  destruct I as (Hq & t & Ht & Hm & Hs).
  rewrite Pos2Z.inj_mul in Hm.
  change (Zpos 4503599627370496) with (2 ^ 52) in Hm.
  pose proof (b2z_range (shr_r R)) as Hr.
  assert (Hpos : 0 < 2 ^ 52) by lia.
  assert (Ht0 : t = 0) by nia.
  assert (Hqm : 2 * Zpos m = 2 * shr_m R + b2z (shr_r R)) by nia.
  assert (Hrf : shr_r R = false) by (destruct (shr_r R); simpl in *; [lia|done]).
  assert (HQ : rounded R = Zpos m).
  { unfold rounded, round_up. rewrite Hrf in *. simpl in *. lia. }
  rewrite HQ. unfold finish.
  pose proof (digits2_pos_bounds m) as [L U].
  assert (Hd : Zpos (digits2_pos m) <= 53) by lia.
  assert (U53 : 2 ^ Zpos (digits2_pos m) <= 2 ^ 53)
    by (apply Z.pow_le_mono_r; lia).
  destruct (Z.eqb_spec (Zpos m) (2 ^ 53)) as [Heq|_]; [lia|].
  unfold bounded in VC. apply andb_true_iff in VC as [_ VE].
  change (emax - prec) with 971 in VE. by rewrite VE.
Qed.

Lemma mul_one_l (c : float) : (1 * c)%float = c.
Proof.
  apply Prim2SF_inj. rewrite mul_spec, Prim2SF_one.
  apply SFmul_one_l, Prim2SF_valid.
Qed.

Lemma mul_one_r (f : float) : (f * 1)%float = f.
Proof. rewrite mul_comm. apply mul_one_l. Qed.

(** The product of two finite floats is not NaN. *)
Lemma SFmul_finite_nonnan (F C : spec_float) :
  valid_binary F = true -> valid_binary C = true ->
  SFis_finite F = true -> SFis_finite C = true ->
  is_nonnan (SF64mul F C) = true.
Proof.
  intros VF VC HF HC.
  destruct F as [sf|sf| |sf mf ef], C as [sc|sc| |sc mc ec];
    try discriminate HF; try discriminate HC; try reflexivity.
  apply (signed_nonnan (xorb sf sc)). by apply SFmul_finite_signed.
Qed.

Lemma mul_finite_not_nan (f c : float) :
  is_finite f = true -> is_finite c = true -> is_nan (f * c) = false.
Proof.
  rewrite !is_finite_spec, is_nan_spec, mul_spec. intros Hf Hc.
  apply negb_false_iff.
  apply SFmul_finite_nonnan; auto using Prim2SF_valid.
Qed.

(** Multiplying by a non-positive float reverses the order. *)
Lemma SFmul_antimono (F G C : spec_float) :
  valid_binary F = true -> valid_binary G = true -> valid_binary C = true ->
  SFleb F G = true -> SFleb C (S754_zero false) = true ->
  is_nonnan (SF64mul F C) = true -> is_nonnan (SF64mul G C) = true ->
  SFleb (SF64mul G C) (SF64mul F C) = true.
Proof.
  intros VF VG VC HFG HC NF NG.
  rewrite <- SFleb_opp, <- !SFmul_opp_r.
  apply SFmul_mono; try assumption.
  - by destruct C.
  - by destruct C as [[]|[]| |[] mc ec].
  - rewrite SFmul_opp_r. by destruct (SF64mul F C).
  - rewrite SFmul_opp_r. by destruct (SF64mul G C).
Qed.

Lemma mul_antimono (f g c : float) :
  (f <=? g)%float = true -> (c <=? 0)%float = true ->
  is_nan (f * c) = false -> is_nan (g * c) = false ->
  (g * c <=? f * c)%float = true.
Proof.
  rewrite !is_nan_spec, !leb_spec, !mul_spec, Prim2SF_zero.
  intros Hfg Hc Nf Ng. apply negb_false_iff in Nf, Ng.
  apply SFmul_antimono; auto using Prim2SF_valid.
Qed.

(** Bounds of a float rule out NaN and the infinities. *)
Lemma leb_between_finite (a x b : float) :
  is_finite a = true -> is_finite b = true ->
  (a <=? x)%float = true -> (x <=? b)%float = true -> is_finite x = true.
Proof.
  rewrite !is_finite_spec, !leb_spec.
  destruct (Prim2SF a) as [[]|[]| |[] ma ea], (Prim2SF x) as [[]|[]| |[] mx ex],
    (Prim2SF b) as [[]|[]| |[] mb eb]; simpl; intros; done.
Qed.

(** [<=] does not tell the two zeros apart. *)
Lemma leb_zero_l (z y : float) :
  (z =? 0)%float = true -> (z <=? y)%float = true -> (0 <=? y)%float = true.
Proof.
  rewrite eqb_zero_spec, !leb_spec, Prim2SF_zero.
  destruct (Prim2SF z) as [[]|[]| |[] mz ez]; try discriminate;
    destruct (Prim2SF y) as [[]|[]| |[] my ey]; simpl; intros; done.
Qed.

Lemma mul_zero_l (f c : float) :
  (f =? 0)%float = true -> is_finite c = true -> (f * c =? 0)%float = true.
Proof. intros Hf Hc. rewrite mul_comm. by apply mul_zero_r. Qed.

End Binary64Facts.

(** ** Calls with float arguments *)

Lemma new_float_kwargs a1 a2 a3 a4 a5 a6 a7 a8 :
  Battery.new (float_kwargs a1 a2 a3 a4 a5 a6 a7 a8)
  = Ok (built a1 a2 a3 a4 a5 a6 a7 a8).
Proof.
  destruct a1, a2, a3, a4, a5, a6, a7, a8; reflexivity.
Qed.

Lemma built_is_battery a1 a2 a3 a4 a5 a6 a7 a8 :
  is_battery (built a1 a2 a3 a4 a5 a6 a7 a8).
Proof.
  unfold is_battery, fields, built.
  repeat (constructor; [by eexists|]). constructor.
Qed.

(** ** What [get_parameters] does on an instance *)

Lemma is_battery_lookup (self : obj) (k : string) :
  is_battery self -> k ∈ fields -> is_Some (self !! k).
Proof.
  intros Hb Hk. unfold is_battery in Hb.
  rewrite Forall_forall in Hb. by apply Hb.
Qed.

Lemma get_parameters_run (self : obj) :
  is_battery self ->
  exists d : dict,
    Battery.get_parameters self = Ok (d, self)
    /\ dom d = list_to_set fields
    /\ forall k, k ∈ fields -> d !! k = self !! k.
Proof.
  intros Hb. unfold is_battery, fields in Hb.
  rewrite !Forall_cons in Hb.
  destruct Hb as ([v1 H1] & [v2 H2] & [v3 H3] & [v4 H4] & [v5 H5]
                  & [v6 H6] & [v7 H7] & [v8 H8] & _).
  eexists. split; [|split].
  - unfold Battery.get_parameters, bind, getattr, ret.
    rewrite H1, H2, H3, H4, H5, H6, H7, H8. reflexivity.
  - rewrite !dom_insert_L, dom_empty_L. unfold fields. set_solver.
  - intros k Hk. unfold fields in Hk.
    repeat (apply elem_of_cons in Hk as [->|Hk]);
      [ rewrite H1 | rewrite H2 | rewrite H3 | rewrite H4 | rewrite H5
      | rewrite H6 | rewrite H7 | rewrite H8 | by apply elem_of_nil in Hk ];
      reflexivity.
Qed.

Lemma setattr_is_battery (self : obj) (k : string) (v : value) :
  is_battery self -> is_battery (<[k := v]> self).
Proof.
  unfold is_battery. intros Hb. eapply Forall_impl; [exact Hb|].
  intros k' [w Hw]; simpl.
  destruct (decide (k = k')) as [->|Hne].
  - rewrite lookup_insert_eq. by eexists.
  - rewrite lookup_insert_ne by done. by eexists.
Qed.

(** ** Construction *)

(** C1. A call that supplies capacity [c] and the fractions [f] and [g]
    stores [min_depth_of_discharge = f * c] and
    [max_depth_of_discharge = g * c] (the binary64 products), whatever the
    other arguments are; with capacity 100.0 and the fractions 0.1 and 0.97
    the stored values, and the values [get_parameters] returns, are 10.0
    and 97.0. *)
Theorem C1_depth_of_discharge_products
    (a1 a3 a4 a5 a6 : option float) (c f g : float) :
  (exists self : obj,
     Battery.new (float_kwargs a1 (Some c) a3 a4 a5 a6 (Some f) (Some g))
       = Ok self
     /\ self !! "min_depth_of_discharge" = Some (VFloat (f * c)%float)
     /\ self !! "max_depth_of_discharge" = Some (VFloat (g * c)%float))
  /\ (exists (self : obj) (d : dict),
     Battery.new (float_kwargs None (Some 100.0%float) None None None None
                    (Some 0.1%float) (Some 0.97%float)) = Ok self
     /\ self !! "min_depth_of_discharge" = Some (VFloat 10.0)
     /\ self !! "max_depth_of_discharge" = Some (VFloat 97.0)
     /\ Battery.get_parameters self = Ok (d, self)
     /\ d !! "min_depth_of_discharge" = Some (VFloat 10.0)
     /\ d !! "max_depth_of_discharge" = Some (VFloat 97.0)).
Proof.
  split.
  - eexists. rewrite new_float_kwargs. by repeat split.
  - do 2 eexists. rewrite new_float_kwargs. by repeat split.
Qed.

(** C3. A call with no arguments leaves exactly the default state:
    charge and capacity 0.0, both power limits 1.0, both efficiencies
    0.95, and both depth-of-discharge bounds 0.0. *)
Theorem C3_default_construction :
  Battery.new Battery.no_kwargs
  = Ok (list_to_map
          [ ("current_charge", VFloat 0.0);
            ("capacity", VFloat 0.0);
            ("charging_power_limit", VFloat 1.0);
            ("discharging_power_limit", VFloat 1.0);
            ("charging_efficiency", VFloat 0.95);
            ("discharging_efficiency", VFloat 0.95);
            ("min_depth_of_discharge", VFloat 0.0);
            ("max_depth_of_discharge", VFloat 0.0) ]).
Proof. reflexivity. Qed.

(** C6. The six attributes other than the two depth-of-discharge bounds
    hold, after construction, exactly the floats that were supplied. *)
Theorem C6_other_fields_stored_as_supplied
    (cc c pc pd ec ed : float) (a7 a8 : option float) :
  exists self : obj,
    Battery.new (float_kwargs (Some cc) (Some c) (Some pc) (Some pd)
                   (Some ec) (Some ed) a7 a8) = Ok self
    /\ self !! "current_charge" = Some (VFloat cc)
    /\ self !! "capacity" = Some (VFloat c)
    /\ self !! "charging_power_limit" = Some (VFloat pc)
    /\ self !! "discharging_power_limit" = Some (VFloat pd)
    /\ self !! "charging_efficiency" = Some (VFloat ec)
    /\ self !! "discharging_efficiency" = Some (VFloat ed).
Proof.
  eexists. rewrite new_float_kwargs. by repeat split.
Qed.

(** C8. Construction checks nothing: for every choice of float arguments
    (each given or defaulted) it returns an instance, never raises, and
    the instance holds the arguments, the two fractions multiplied by the
    capacity.  An efficiency of 1.5, a power limit of -3.0 and fractions
    2.0 and -1.0 are stored like any other. *)
Theorem C8_construction_never_raises
    (a1 a2 a3 a4 a5 a6 a7 a8 : option float) :
  (exists self : obj,
     Battery.new (float_kwargs a1 a2 a3 a4 a5 a6 a7 a8) = Ok self
     /\ is_battery self
     /\ self !! "current_charge" = Some (VFloat (default 0.0%float a1))
     /\ self !! "capacity" = Some (VFloat (default 0.0%float a2))
     /\ self !! "charging_power_limit" = Some (VFloat (default 1.0%float a3))
     /\ self !! "discharging_power_limit"
        = Some (VFloat (default 1.0%float a4))
     /\ self !! "charging_efficiency" = Some (VFloat (default 0.95%float a5))
     /\ self !! "discharging_efficiency"
        = Some (VFloat (default 0.95%float a6))
     /\ self !! "min_depth_of_discharge"
        = Some (VFloat (default 0.1 a7 * default 0.0 a2)%float)
     /\ self !! "max_depth_of_discharge"
        = Some (VFloat (default 0.97 a8 * default 0.0 a2)%float))
  /\ (exists self : obj,
     Battery.new (float_kwargs None (Some 50.0%float) (Some (-3.0)%float)
                    None (Some 1.5%float) None (Some 2.0%float)
                    (Some (-1.0)%float)) = Ok self
     /\ self !! "charging_power_limit" = Some (VFloat (-3.0))
     /\ self !! "charging_efficiency" = Some (VFloat 1.5)
     /\ self !! "min_depth_of_discharge" = Some (VFloat 100.0)
     /\ self !! "max_depth_of_discharge" = Some (VFloat (-50.0))).
Proof.
  split.
  - eexists. rewrite new_float_kwargs.
    split; [reflexivity|]. split; [apply built_is_battery|].
    by repeat split.
  - eexists. rewrite new_float_kwargs. by repeat split.
Qed.

(** ** The query *)

(** C2. On every instance [get_parameters] returns a dict whose keys are
    exactly the eight attribute names (eight keys, none missing, none
    extra, whatever other attributes the instance carries), each mapped to
    the value the attribute holds. *)
Theorem C2_get_parameters_keys (self : obj) :
  is_battery self ->
  exists d : dict,
    Battery.get_parameters self = Ok (d, self)
    /\ dom d = ({[ "current_charge"; "capacity"; "charging_power_limit";
                   "discharging_power_limit"; "charging_efficiency";
                   "discharging_efficiency"; "min_depth_of_discharge";
                   "max_depth_of_discharge" ]} : gset string)
    /\ size d = 8
    /\ (forall k, is_Some (d !! k) <-> k ∈ fields)
    /\ (forall k, k ∈ fields -> d !! k = self !! k).
Proof.
  intros Hb. destruct (get_parameters_run self Hb) as (d & Hrun & Hdom & Hval).
  exists d. split; [exact Hrun|].
  assert (Hk : forall k, is_Some (d !! k) <-> k ∈ fields).
  { intros k. rewrite <- elem_of_dom, Hdom. apply elem_of_list_to_set. }
  split; [|split; [|split; [exact Hk|exact Hval]]].
  - rewrite Hdom. unfold fields. set_solver.
  - rewrite <- size_dom, Hdom. reflexivity.
Qed.

Lemma C2_get_parameters_keys_witness :
  is_battery (built None None None None None None None None)
  /\ exists d : dict,
       Battery.get_parameters (built None None None None None None None None)
         = Ok (d, built None None None None None None None None)
       /\ size d = 8.
Proof.
  assert (H : is_battery (built None None None None None None None None)).
  { apply (bool_decide_unpack _). vm_compute. exact I. }
  split; [exact H|].
  destruct (C2_get_parameters_keys _ H) as (d & Hrun & _ & Hsize & _).
  exists d. split; assumption.
Defined.

(** C9. [get_parameters] cannot fail on an instance and leaves it as it
    found it: it returns, and the instance after the call is the instance
    before it, so every attribute holds what it held. *)
Theorem C9_get_parameters_no_side_effect (self : obj) :
  is_battery self ->
  exists (d : dict) (self' : obj),
    Battery.get_parameters self = Ok (d, self')
    /\ self' = self
    /\ forall k, self' !! k = self !! k.
Proof.
  intros Hb. destruct (get_parameters_run self Hb) as (d & Hrun & _).
  exists d, self. by repeat split.
Qed.

Lemma C9_get_parameters_no_side_effect_witness :
  is_battery (built None (Some 100.0%float) None None None None None None)
  /\ exists (d : dict) (self' : obj),
       Battery.get_parameters
         (built None (Some 100.0%float) None None None None None None)
         = Ok (d, self')
       /\ self' !! "capacity" = Some (VFloat 100.0).
Proof.
  assert (H : is_battery
                (built None (Some 100.0%float) None None None None None None)).
  { apply (bool_decide_unpack _). vm_compute. exact I. }
  split; [exact H|].
  destruct (C9_get_parameters_no_side_effect _ H) as (d & self' & Hrun & -> & _).
  exists d. eexists. split; [exact Hrun|reflexivity].
Defined.

(** C7. Two calls of [get_parameters] in a row, nothing assigned in
    between, return equal dicts. *)
Theorem C7_get_parameters_idempotent (self : obj) :
  is_battery self ->
  exists d : dict,
    (d1 <- Battery.get_parameters ;;
     d2 <- Battery.get_parameters ;;
     ret (d1, d2))%py self = Ok ((d, d), self).
Proof.
  intros Hb. destruct (get_parameters_run self Hb) as (d & Hrun & _).
  exists d. unfold bind. rewrite Hrun. rewrite Hrun. reflexivity.
Qed.

Lemma C7_get_parameters_idempotent_witness :
  is_battery (built None None None None None None None None)
  /\ exists d : dict,
       (d1 <- Battery.get_parameters ;;
        d2 <- Battery.get_parameters ;;
        ret (d1, d2))%py (built None None None None None None None None)
       = Ok ((d, d), built None None None None None None None None).
Proof.
  assert (H : is_battery (built None None None None None None None None)).
  { apply (bool_decide_unpack _). vm_compute. exact I. }
  split; [exact H|]. exact (C7_get_parameters_idempotent _ H).
Defined.

(** C5. [get_parameters] reads the attributes when it is called: after an
    assignment [self.k = v] to any of the eight attributes (for instance
    [current_charge]), the next call returns [v] under [k] and the other
    attributes' values as they are, also when an earlier call had returned
    the old value. *)
Theorem C5_get_parameters_fresh_snapshot
    (self : obj) (k : string) (v : value) :
  is_battery self -> k ∈ fields ->
  exists d0 d1 : dict,
    (d0 <- Battery.get_parameters ;;
     setattr k v ;;
     d1 <- Battery.get_parameters ;;
     ret (d0, d1))%py self = Ok ((d0, d1), <[k := v]> self)
    /\ d0 !! k = self !! k
    /\ d1 !! k = Some v
    /\ forall k', k' ∈ fields -> k' ≠ k -> d1 !! k' = self !! k'.
Proof.
  intros Hb Hk.
  destruct (get_parameters_run self Hb) as (d0 & Hrun0 & _ & Hval0).
  destruct (get_parameters_run _ (setattr_is_battery self k v Hb))
    as (d1 & Hrun1 & _ & Hval1).
  exists d0, d1. split; [|split; [|split]].
  - unfold bind, setattr. rewrite Hrun0, Hrun1. reflexivity.
  - by apply Hval0.
  - rewrite (Hval1 k Hk). apply lookup_insert_eq.
  - intros k' Hk' Hne. rewrite (Hval1 k' Hk'). by apply lookup_insert_ne.
Qed.

Lemma C5_get_parameters_fresh_snapshot_witness :
  is_battery (built None None None None None None None None)
  /\ "current_charge" ∈ fields
  /\ exists d0 d1 : dict,
       (d0 <- Battery.get_parameters ;;
        setattr "current_charge" (VFloat 42.0) ;;
        d1 <- Battery.get_parameters ;;
        ret (d0, d1))%py (built None None None None None None None None)
       = Ok ((d0, d1),
             <["current_charge" := VFloat 42.0]>
               (built None None None None None None None None))
       /\ d0 !! "current_charge" = Some (VFloat 0.0)
       /\ d1 !! "current_charge" = Some (VFloat 42.0).
Proof.
  assert (H : is_battery (built None None None None None None None None)).
  { apply (bool_decide_unpack _). vm_compute. exact I. }
  assert (Hk : "current_charge" ∈ fields).
  { apply (bool_decide_unpack _). vm_compute. exact I. }
  split; [exact H|]. split; [exact Hk|].
  destruct (C5_get_parameters_fresh_snapshot _ "current_charge"
              (VFloat 42.0) H Hk) as (d0 & d1 & Hrun & H0 & H1 & _).
  exists d0, d1. split; [exact Hrun|]. split; [|exact H1].
  rewrite H0. reflexivity.
Defined.

(** ** The depth-of-discharge bounds *)

Lemma dod_fields :
  "min_depth_of_discharge" ∈ fields /\ "max_depth_of_discharge" ∈ fields.
Proof. unfold fields. split; set_solver. Qed.

(** C4, as stated, fails.  With capacity -100.0 and the default fractions
    the stored bounds are -10.0 and -97.0, not 0: a negative capacity is
    multiplied in like any other.  And a zero capacity does not give 0
    "regardless of the fractions": with capacity 0.0 and the fraction
    [infinity] the stored minimum is NaN. *)
Lemma C4_nonpositive_capacity_counterexample :
  ~ (forall (a1 a3 a4 a5 a6 a7 a8 : option float) (c : float),
       (c <=? 0)%float = true ->
       exists self : obj,
         Battery.new (float_kwargs a1 (Some c) a3 a4 a5 a6 a7 a8) = Ok self
         /\ holds_zero self "min_depth_of_discharge"
         /\ holds_zero self "max_depth_of_discharge")
  /\ (exists self : obj,
        Battery.new (float_kwargs None (Some (-100.0)%float) None None None
                       None None None) = Ok self
        /\ self !! "min_depth_of_discharge" = Some (VFloat (-10.0))
        /\ self !! "max_depth_of_discharge" = Some (VFloat (-97.0))
        /\ (-10.0 =? 0)%float = false
        /\ (-97.0 =? 0)%float = false)
  /\ (exists (self : obj) (x : float),
        Battery.new (float_kwargs None (Some 0.0%float) None None None None
                       (Some infinity) None) = Ok self
        /\ self !! "min_depth_of_discharge" = Some (VFloat x)
        /\ is_nan x = true
        /\ (x =? 0)%float = false).
Proof.
  split; [|split].
  - intros H.
    destruct (H None None None None None None None (-100.0)%float eq_refl)
      as (self & Hnew & (x & Hx & Hz) & _).
    rewrite new_float_kwargs in Hnew. injection Hnew as <-.
    assert (Hm : built None (Some (-100.0)%float) None None None None None None
                 !! "min_depth_of_discharge" = Some (VFloat (-10.0)))
      by reflexivity.
    rewrite Hm in Hx. injection Hx as <-. discriminate Hz.
  - eexists. rewrite new_float_kwargs. by repeat split.
  - do 2 eexists. rewrite new_float_kwargs. by repeat split.
Qed.

(** C4, amended.  When the capacity is zero (0.0 or -0.0, given or
    defaulted) and the two fractions are finite, construction succeeds and
    both stored depth-of-discharge bounds compare equal to 0. *)
Theorem C4_zero_capacity_zero_bounds
    (a1 a2 a3 a4 a5 a6 a7 a8 : option float) :
  (default 0.0 a2 =? 0)%float = true ->
  is_finite (default 0.1%float a7) = true ->
  is_finite (default 0.97%float a8) = true ->
  exists self : obj,
    Battery.new (float_kwargs a1 a2 a3 a4 a5 a6 a7 a8) = Ok self
    /\ holds_zero self "min_depth_of_discharge"
    /\ holds_zero self "max_depth_of_discharge".
Proof.
  intros Hc Hf Hg. eexists. rewrite new_float_kwargs.
  split; [reflexivity|].
  split; eexists; (split; [reflexivity|]);
    by apply Binary64Facts.mul_zero_r.
Qed.

Lemma C4_zero_capacity_zero_bounds_witness :
  (-0.0 =? 0)%float = true
  /\ is_finite 2.5%float = true
  /\ is_finite 0.97%float = true
  /\ exists self : obj,
       Battery.new (float_kwargs None (Some (-0.0)%float) None None None None
                      (Some 2.5%float) None) = Ok self
       /\ holds_zero self "min_depth_of_discharge"
       /\ holds_zero self "max_depth_of_discharge".
Proof.
  repeat (split; [reflexivity|]).
  apply (C4_zero_capacity_zero_bounds None (Some (-0.0)%float) None None None
           None (Some 2.5%float) None); reflexivity.
Defined.

(** C10, as stated, fails.  With the fractions 0.0 <= 1.0 and the capacity
    [infinity] >= 0 the stored minimum is 0.0 * inf = NaN and the stored
    maximum is inf, and NaN <= inf is false. *)
Lemma C10_infinite_capacity_counterexample :
  ~ (forall (a1 a2 a3 a4 a5 a6 a7 a8 : option float),
       (default 0.1 a7 <=? default 0.97 a8)%float = true ->
       (0 <=? default 0.0 a2)%float = true ->
       exists self : obj,
         Battery.new (float_kwargs a1 a2 a3 a4 a5 a6 a7 a8) = Ok self
         /\ dod_ordered self)
  /\ (exists (self : obj) (lo hi : float),
        Battery.new (float_kwargs None (Some infinity) None None None None
                       (Some 0.0%float) (Some 1.0%float)) = Ok self
        /\ (0.0 <=? 1.0)%float = true
        /\ (0 <=? infinity)%float = true
        /\ self !! "min_depth_of_discharge" = Some (VFloat lo)
        /\ self !! "max_depth_of_discharge" = Some (VFloat hi)
        /\ is_nan lo = true
        /\ hi = infinity
        /\ (lo <=? hi)%float = false).
Proof.
  split.
  - intros H.
    destruct (H None (Some infinity) None None None None (Some 0.0%float)
                (Some 1.0%float) eq_refl eq_refl)
      as (self & Hnew & lo & hi & Hlo & Hhi & Hle).
    rewrite new_float_kwargs in Hnew. injection Hnew as <-.
    assert (Hm : built None (Some infinity) None None None None
                   (Some 0.0%float) (Some 1.0%float)
                 !! "min_depth_of_discharge" = Some (VFloat nan))
      by reflexivity.
    assert (HM : built None (Some infinity) None None None None
                   (Some 0.0%float) (Some 1.0%float)
                 !! "max_depth_of_discharge" = Some (VFloat infinity))
      by reflexivity.
    rewrite Hm in Hlo. rewrite HM in Hhi.
    injection Hlo as <-. injection Hhi as <-. discriminate Hle.
  - do 3 eexists. rewrite new_float_kwargs. by repeat split.
Qed.

(** C10, amended.  When the minimum fraction is <= the maximum fraction,
    the capacity is >= 0 and neither product fraction * capacity is NaN
    (NaN arises only from a zero times an infinity), the constructed
    instance has [min_depth_of_discharge <= max_depth_of_discharge];
    [get_parameters] leaves the instance as it is and returns the two
    bounds in the same order. *)
Theorem C10_bounds_ordered (a1 a2 a3 a4 a5 a6 a7 a8 : option float) :
  (default 0.1 a7 <=? default 0.97 a8)%float = true ->
  (0 <=? default 0.0 a2)%float = true ->
  is_nan (default 0.1 a7 * default 0.0 a2)%float = false ->
  is_nan (default 0.97 a8 * default 0.0 a2)%float = false ->
  exists (self : obj) (d : dict),
    Battery.new (float_kwargs a1 a2 a3 a4 a5 a6 a7 a8) = Ok self
    /\ dod_ordered self
    /\ Battery.get_parameters self = Ok (d, self)
    /\ dod_ordered d.
Proof.
  intros Hfg Hc Nf Ng.
  pose proof (Binary64Facts.mul_mono _ _ _ Hfg Hc Nf Ng) as Hle.
  destruct (get_parameters_run _ (built_is_battery a1 a2 a3 a4 a5 a6 a7 a8))
    as (d & Hrun & _ & Hval).
  destruct dod_fields as [Hmin Hmax].
  assert (Hord : dod_ordered (built a1 a2 a3 a4 a5 a6 a7 a8)).
  { eexists _, _. split; [reflexivity|]. split; [reflexivity|exact Hle]. }
  exists (built a1 a2 a3 a4 a5 a6 a7 a8), d.
  split; [apply new_float_kwargs|]. split; [exact Hord|].
  split; [exact Hrun|].
  destruct Hord as (lo & hi & Hlo & Hhi & Hlh).
  exists lo, hi. rewrite (Hval _ Hmin), (Hval _ Hmax). by repeat split.
Qed.

Lemma C10_bounds_ordered_witness :
  (0.1 <=? 0.97)%float = true
  /\ (0 <=? 100.0)%float = true
  /\ is_nan (0.1 * 100.0)%float = false
  /\ is_nan (0.97 * 100.0)%float = false
  /\ exists (self : obj) (d : dict),
       Battery.new (float_kwargs None (Some 100.0%float) None None None None
                      None None) = Ok self
       /\ dod_ordered self
       /\ Battery.get_parameters self = Ok (d, self)
       /\ dod_ordered d.
Proof.
  repeat (split; [reflexivity|]).
  apply (C10_bounds_ordered None (Some 100.0%float) None None None None
           None None); reflexivity.
Defined.


(** ** Errors *)


(** [get_parameters] raises exactly on an object that lacks one of the
    eight attributes, and then it raises [AttributeError] for the first
    one missing in the order the method reads them; on every other object
    it returns and leaves the object as it is. *)
Theorem get_parameters_missing_attribute (self : obj) :
  match first_missing self with
  | Some k =>
      k ∈ fields /\ self !! k = None
      /\ Battery.get_parameters self = Raise (AttributeError k)
  | None =>
      is_battery self
      /\ exists d : dict, Battery.get_parameters self = Ok (d, self)
  end.
Proof.
  unfold first_missing, fields, Battery.get_parameters, bind, getattr, ret.
  cbn [List.find].
  destruct (self !! "current_charge") eqn:H1;
    [|split; [set_solver|split; [done|by rewrite ?H1]]].
  destruct (self !! "capacity") eqn:H2;
    [|split; [set_solver|split; [done|by rewrite ?H2]]].
  destruct (self !! "charging_power_limit") eqn:H3;
    [|split; [set_solver|split; [done|by rewrite ?H3]]].
  destruct (self !! "discharging_power_limit") eqn:H4;
    [|split; [set_solver|split; [done|by rewrite ?H4]]].
  destruct (self !! "charging_efficiency") eqn:H5;
    [|split; [set_solver|split; [done|by rewrite ?H5]]].
  destruct (self !! "discharging_efficiency") eqn:H6;
    [|split; [set_solver|split; [done|by rewrite ?H6]]].
  destruct (self !! "min_depth_of_discharge") eqn:H7;
    [|split; [set_solver|split; [done|by rewrite ?H7]]].
  destruct (self !! "max_depth_of_discharge") eqn:H8;
    [|split; [set_solver|split; [done|by rewrite ?H8]]].
  split; [|by eexists].
  unfold is_battery, fields.
  repeat (constructor; [by eexists|]). constructor.
Qed.


(** ** Attributes that are not fields *)

(** [get_parameters] reads the eight attributes and nothing else: an
    assignment to an attribute of any other name changes neither whether
    the method returns nor the dict it returns. *)
Theorem get_parameters_ignores_other_attributes
    (self : obj) (k : string) (v : value) :
  k ∉ fields ->
  Battery.get_parameters (<[k := v]> self)
  = match Battery.get_parameters self with
    | Ok (d, _) => Ok (d, <[k := v]> self)
    | Raise e => Raise e
    end.
Proof.
  intros Hk. unfold fields in Hk.
  assert (Hne : forall a, a ∈ fields -> (<[k := v]> self) !! a = self !! a).
  { intros a Ha. apply lookup_insert_ne. unfold fields in Ha. set_solver. }
  unfold Battery.get_parameters, bind, getattr, ret.
  do 8 (match goal with
        | |- context [(<[k := v]> self) !! ?a] =>
            rewrite (Hne a) by (unfold fields; set_solver);
            destruct (self !! a); [cbn|reflexivity]
        end).
  reflexivity.
Qed.

Lemma get_parameters_ignores_other_attributes_witness :
  ("serial_number" ∉ fields)
  /\ exists d : dict,
       Battery.get_parameters
         (<["serial_number" := VStr "A-17"]>
            (built None None None None None None None None))
       = Ok (d, <["serial_number" := VStr "A-17"]>
                  (built None None None None None None None None))
       /\ Battery.get_parameters
            (built None None None None None None None None)
          = Ok (d, built None None None None None None None None).
Proof.
  assert (Hk : "serial_number" ∉ fields).
  { apply (bool_decide_unpack _). vm_compute. exact I. }
  split; [exact Hk|].
  eexists. split; [|reflexivity].
  rewrite (get_parameters_ignores_other_attributes _ _ (VStr "A-17") Hk).
  reflexivity.
Defined.


(** ** Feeding [get_parameters] back to the constructor *)

Lemma built_dom a1 a2 a3 a4 a5 a6 a7 a8 :
  dom (built a1 a2 a3 a4 a5 a6 a7 a8) ⊆ (list_to_set fields : gset string).
Proof.
  unfold built, fields. rewrite !dom_insert_L, dom_empty_L. set_solver.
Qed.

Lemma get_parameters_built a1 a2 a3 a4 a5 a6 a7 a8 :
  Battery.get_parameters (built a1 a2 a3 a4 a5 a6 a7 a8)
  = Ok (built a1 a2 a3 a4 a5 a6 a7 a8, built a1 a2 a3 a4 a5 a6 a7 a8).
Proof. reflexivity. Qed.

Lemma call_with_dict_built a1 a2 a3 a4 a5 a6 a7 a8 :
  call_with_dict (built a1 a2 a3 a4 a5 a6 a7 a8)
  = Ok (built (Some (default 0.0%float a1)) (Some (default 0.0%float a2))
          (Some (default 1.0%float a3)) (Some (default 1.0%float a4))
          (Some (default 0.95%float a5)) (Some (default 0.95%float a6))
          (Some (default 0.1 a7 * default 0.0 a2)%float)
          (Some (default 0.97 a8 * default 0.0 a2)%float)).
Proof.
  unfold call_with_dict.
  destruct (decide _) as [_|Hn]; [|destruct Hn; apply built_dom].
  reflexivity.
Qed.

(** The dict [get_parameters] returns has the constructor's parameter names
    as keys, so it can be passed back as keyword arguments; but the result
    is not a copy.  The six plain attributes come back as they were, while
    the two depth-of-discharge bounds, already multiplied by the capacity,
    are multiplied by it once more. *)
Theorem rebuild_scales_bounds_again (a1 a2 a3 a4 a5 a6 a7 a8 : option float) :
  exists (self : obj) (d : dict) (self' : obj),
    Battery.new (float_kwargs a1 a2 a3 a4 a5 a6 a7 a8) = Ok self
    /\ Battery.get_parameters self = Ok (d, self)
    /\ call_with_dict d = Ok self'
    /\ (forall k, k ∈ fields -> k ≠ "min_depth_of_discharge" ->
        k ≠ "max_depth_of_discharge" -> self' !! k = self !! k)
    /\ self' !! "min_depth_of_discharge"
       = Some (VFloat (default 0.1 a7 * default 0.0 a2 * default 0.0 a2)%float)
    /\ self' !! "max_depth_of_discharge"
       = Some (VFloat (default 0.97 a8 * default 0.0 a2 * default 0.0 a2)%float).
Proof.
  do 3 eexists. rewrite new_float_kwargs.
  split; [reflexivity|]. split; [apply get_parameters_built|].
  split; [apply call_with_dict_built|].
  split; [|split; reflexivity].
  intros k Hk Hmin Hmax. unfold fields in Hk.
  repeat (apply elem_of_cons in Hk as [->|Hk]); try done.
  by apply elem_of_nil in Hk.
Qed.

(** With capacity 1.0 the stored bounds are the fractions themselves
    (multiplying a float by 1.0 is exact), and the instance rebuilt from its
    own [get_parameters] is the instance. *)
Theorem unit_capacity_round_trip
    (a1 a3 a4 a5 a6 : option float) (f g : float) :
  exists (self : obj) (d : dict),
    Battery.new (float_kwargs a1 (Some 1.0%float) a3 a4 a5 a6 (Some f) (Some g))
      = Ok self
    /\ self !! "min_depth_of_discharge" = Some (VFloat f)
    /\ self !! "max_depth_of_discharge" = Some (VFloat g)
    /\ Battery.get_parameters self = Ok (d, self)
    /\ call_with_dict d = Ok self.
Proof.
  do 2 eexists. rewrite new_float_kwargs.
  split; [reflexivity|].
  split; [by rewrite <- (Binary64Facts.mul_one_r f) at 2|].
  split; [by rewrite <- (Binary64Facts.mul_one_r g) at 2|].
  split; [apply get_parameters_built|].
  rewrite call_with_dict_built. cbn [default].
  unfold built. cbn [default]. by rewrite !Binary64Facts.mul_one_r.
Qed.


(** ** Where the stored bounds lie *)

(** Fractions between 0 and 1 are finite floats. *)
Lemma fractions_finite (f g : float) :
  (0 <=? f)%float = true -> (f <=? g)%float = true -> (g <=? 1)%float = true ->
  is_finite f = true /\ is_finite g = true.
Proof.
  rewrite !Binary64Facts.is_finite_spec, !leb_spec,
    Binary64Facts.Prim2SF_zero, Binary64Facts.Prim2SF_one.
  destruct (Prim2SF f) as [[]|[]| |[] mf ef], (Prim2SF g) as [[]|[]| |[] mg eg];
    simpl; intros; done.
Qed.

(** With a finite capacity >= 0 and fractions 0 <= min <= max <= 1 (the
    defaults 0.1 and 0.97 are such), the stored bounds are absolute
    quantities within the capacity:
    0 <= min_depth_of_discharge <= max_depth_of_discharge <= capacity. *)
Theorem bounds_within_capacity (a1 a2 a3 a4 a5 a6 a7 a8 : option float) :
  is_finite (default 0.0%float a2) = true ->
  (0 <=? default 0.0 a2)%float = true ->
  (0 <=? default 0.1 a7)%float = true ->
  (default 0.1 a7 <=? default 0.97 a8)%float = true ->
  (default 0.97 a8 <=? 1)%float = true ->
  exists (self : obj) (lo hi : float),
    Battery.new (float_kwargs a1 a2 a3 a4 a5 a6 a7 a8) = Ok self
    /\ self !! "min_depth_of_discharge" = Some (VFloat lo)
    /\ self !! "max_depth_of_discharge" = Some (VFloat hi)
    /\ (0 <=? lo)%float = true
    /\ (lo <=? hi)%float = true
    /\ (hi <=? default 0.0 a2)%float = true.
Proof.
  set (c := default 0.0%float a2). set (f := default 0.1%float a7).
  set (g := default 0.97%float a8).
  intros Fc Hc H0f Hfg Hg1.
  destruct (fractions_finite f g H0f Hfg Hg1) as [Ff Fg].
  assert (F0 : is_finite 0%float = true) by reflexivity.
  assert (F1 : is_finite 1%float = true) by reflexivity.
  pose proof (Binary64Facts.mul_finite_not_nan f c Ff Fc) as Nf.
  pose proof (Binary64Facts.mul_finite_not_nan g c Fg Fc) as Ng.
  pose proof (Binary64Facts.mul_finite_not_nan 0 c F0 Fc) as N0.
  pose proof (Binary64Facts.mul_finite_not_nan 1 c F1 Fc) as N1.
  exists (built a1 a2 a3 a4 a5 a6 a7 a8), (f * c)%float, (g * c)%float.
  split; [apply new_float_kwargs|]. do 2 (split; [reflexivity|]).
  split; [|split].
  - apply (Binary64Facts.leb_zero_l (0 * c)).
    + by apply Binary64Facts.mul_zero_l.
    + by apply Binary64Facts.mul_mono.
  - by apply Binary64Facts.mul_mono.
  - rewrite <- (Binary64Facts.mul_one_l c) at 2.
    by apply Binary64Facts.mul_mono.
Qed.

Lemma bounds_within_capacity_witness :
  exists (self : obj) (lo hi : float),
    Battery.new (float_kwargs None (Some 100.0%float) None None None None None None)
      = Ok self
    /\ self !! "min_depth_of_discharge" = Some (VFloat lo)
    /\ self !! "max_depth_of_discharge" = Some (VFloat hi)
    /\ (0 <=? lo)%float = true
    /\ (lo <=? hi)%float = true
    /\ (hi <=? 100.0)%float = true.
Proof.
  apply (bounds_within_capacity None (Some 100.0%float) None None None None None None);
    reflexivity.
Defined.

(** With a capacity <= 0 the order of the stored bounds is reversed: when
    min fraction <= max fraction and neither product is NaN, the stored
    max_depth_of_discharge is <= the stored min_depth_of_discharge. *)
Theorem nonpositive_capacity_reverses_bounds (a1 a2 a3 a4 a5 a6 a7 a8 : option float) :
  (default 0.0 a2 <=? 0)%float = true ->
  (default 0.1 a7 <=? default 0.97 a8)%float = true ->
  is_nan (default 0.1 a7 * default 0.0 a2)%float = false ->
  is_nan (default 0.97 a8 * default 0.0 a2)%float = false ->
  exists (self : obj) (lo hi : float),
    Battery.new (float_kwargs a1 a2 a3 a4 a5 a6 a7 a8) = Ok self
    /\ self !! "min_depth_of_discharge" = Some (VFloat lo)
    /\ self !! "max_depth_of_discharge" = Some (VFloat hi)
    /\ (hi <=? lo)%float = true.
Proof.
  intros Hc Hfg Nf Ng.
  exists (built a1 a2 a3 a4 a5 a6 a7 a8),
    (default 0.1 a7 * default 0.0 a2)%float, (default 0.97 a8 * default 0.0 a2)%float.
  split; [apply new_float_kwargs|]. do 2 (split; [reflexivity|]).
  by apply Binary64Facts.mul_antimono.
Qed.

Lemma nonpositive_capacity_reverses_bounds_witness :
  exists (self : obj) (lo hi : float),
    Battery.new (float_kwargs None (Some (-100.0)%float) None None None None None None)
      = Ok self
    /\ self !! "min_depth_of_discharge" = Some (VFloat lo)
    /\ self !! "max_depth_of_discharge" = Some (VFloat hi)
    /\ (hi <=? lo)%float = true.
Proof.
  apply (nonpositive_capacity_reverses_bounds
           None (Some (-100.0)%float) None None None None None None);
    reflexivity.
Defined.


(** ** Construction followed by the query *)

(** Whatever the arguments are (floats or not), a construction that returns
    leaves an instance with the eight attributes and no other, and
    [get_parameters] on it returns a dict equal to the whole attribute
    dictionary of the instance. *)
Theorem new_then_get_parameters (kw : Battery.kwargs) (self : obj) :
  Battery.new kw = Ok self ->
  dom self = (list_to_set fields : gset string)
  /\ Battery.get_parameters self = Ok (self, self).
Proof.
  destruct kw as [o1 o2 o3 o4 o5 o6 o7 o8].
  destruct o2 as [[c|?|]|], o7 as [[f|?|]|], o8 as [[g|?|]|];
    cbn; intros H; try discriminate H; injection H as <-;
    (split; [unfold fields; rewrite !dom_insert_L, dom_empty_L; set_solver
            |reflexivity]).
Qed.

Lemma new_then_get_parameters_witness :
  exists self : obj,
    Battery.new (Battery.Kwargs (Some (VStr "full")) (Some (VFloat 100.0))
                   None None (Some VNone) None None None) = Ok self
    /\ dom self = (list_to_set fields : gset string)
    /\ Battery.get_parameters self = Ok (self, self).
Proof.
  eexists. split; [reflexivity|].
  apply (new_then_get_parameters
           (Battery.Kwargs (Some (VStr "full")) (Some (VFloat 100.0))
              None None (Some VNone) None None None)).
  reflexivity.
Defined.

(** The bounds are computed once, at construction: assigning a new value to
    [capacity] afterwards changes the capacity [get_parameters] reports, and
    leaves both bounds at the products with the capacity given to the
    constructor. *)
Theorem bounds_not_rescaled_on_capacity_change
    (a1 a2 a3 a4 a5 a6 a7 a8 : option float) (c' : value) :
  exists (self : obj) (d : dict),
    Battery.new (float_kwargs a1 a2 a3 a4 a5 a6 a7 a8) = Ok self
    /\ (setattr "capacity" c' ;; Battery.get_parameters)%py self
       = Ok (d, <["capacity" := c']> self)
    /\ d !! "capacity" = Some c'
    /\ d !! "min_depth_of_discharge"
       = Some (VFloat (default 0.1 a7 * default 0.0 a2)%float)
    /\ d !! "max_depth_of_discharge"
       = Some (VFloat (default 0.97 a8 * default 0.0 a2)%float).
Proof.
  do 2 eexists. rewrite new_float_kwargs.
  split; [reflexivity|]. split; [reflexivity|]. repeat split.
Qed.
